(** * nicerpdb: a Rich front-end over [pdb]

    Shallow embedding of [src/nicerpdb/debugger.py] and verification of
    the properties its specification states about it.

    The module is a thin session layer: it reads already materialised
    debugger state (frames, the source-line cache, a configuration dict)
    and prints renderables to a shared console.  The embedding keeps that
    shape:

    - Python [int]s are [Z]; [str]s are [string] (code points below 256);
      [dict]s with string keys are [gmap string _]; [set]s are [gset];
    - dict objects that the code copies and mutates live in a store
      addressed by references, so aliasing is visible;
    - every function that prints, raises or touches the store is a
      computation in the state-and-exception monad [M];
    - the collaborators the module only consumes ([pdb.Pdb]'s command
      loop and evaluator, Rich's renderables) are the parameters of a
      section or the constructors of an event type. *)

From Stdlib Require Import ZArith Ascii String List Sorting.Sorted.
From stdpp Require Import base option list gmap strings pretty sorting.

Local Open Scope Z_scope.

(** ** Python values *)

(** The values that configuration entries, local variables and evaluated
    expressions range over.  [VObj] stands for any other object; it
    carries its truth value and its [repr]. *)
Inductive value : Type :=
  | VNone
  | VBool (b : bool)
  | VInt (z : Z)
  | VStr (s : string)
  | VObj (truth : bool) (repr : string).

Global Instance value_eq_dec : EqDecision value.
Proof. solve_decision. Defined.

(** [bool(v)], as used by [if v:]. *)
Definition truthy (v : value) : bool :=
  match v with
  | VNone => false
  | VBool b => b
  | VInt z => negb (z =? 0)
  | VStr s => negb (String.eqb s "")
  | VObj t _ => t
  end.

(** The integer an arithmetic operator sees in [v]; [bool] is a subclass
    of [int].  [None] is the operand on which [int - v] raises
    [TypeError]. *)
Definition as_int (v : value) : option Z :=
  match v with
  | VInt z => Some z
  | VBool b => Some (if b then 1 else 0)
  | _ => None
  end.

(** ** Exceptions *)

(** [except Exception] catches the instances of [Exception]; the
    system-exiting classes ([SystemExit], [KeyboardInterrupt],
    [GeneratorExit]) derive from [BaseException] only and pass through
    such a clause. *)
Inductive exc_class : Type :=
  | ExceptionSub (name : string)
  | BaseExceptionOnly (name : string).

Record exn : Type := Exn { exn_class : exc_class; exn_str : string }.

Definition is_Exception (e : exn) : bool :=
  match exn_class e with
  | ExceptionSub _ => true
  | BaseExceptionOnly _ => false
  end.

Definition TypeError (msg : string) : exn := Exn (ExceptionSub "TypeError") msg.
Definition KeyError (key : string) : exn := Exn (ExceptionSub "KeyError") key.
Definition KeyboardInterrupt : exn := Exn (BaseExceptionOnly "KeyboardInterrupt") "".

(** ** Strings and slices *)

(** [str.isspace] on the code points below 256. *)
Definition isspace (c : ascii) : bool :=
  let n := N_of_ascii c in
  ((9 <=? n) && (n <=? 13) || (28 <=? n) && (n <=? 32)
   || (n =? 133) || (n =? 160))%N.

Fixpoint lstrip (s : string) : string :=
  match s with
  | EmptyString => EmptyString
  | String c r => if isspace c then lstrip r else s
  end.

Fixpoint rstrip (s : string) : string :=
  match s with
  | EmptyString => EmptyString
  | String c r =>
      match rstrip r with
      | EmptyString => if isspace c then EmptyString else String c EmptyString
      | r' => String c r'
      end
  end.

(** [s.strip()] *)
Definition strip (s : string) : string := rstrip (lstrip s).

(** [sep.join(parts)] *)
Definition join (sep : string) (parts : list string) : string :=
  String.concat sep parts.

(** [s[:n]] for [n >= 0] *)
Definition str_take (n : nat) (s : string) : string := String.substring 0 n s.

(** [str(n)] and the [{n}] of an f-string, for an [int]. *)
Definition str_of_int (n : Z) : string := pretty n.

(** How a slice bound is clipped against a sequence of length [len]:
    negative bounds count from the end. *)
Definition slice_bound (len i : Z) : Z :=
  if i <? 0 then Z.max 0 (i + len) else Z.min i len.

(** [l[a:b]] *)
Definition py_slice {A : Type} (l : list A) (a b : Z) : list A :=
  let len := Z.of_nat (length l) in
  let a' := slice_bound len a in
  let b' := slice_bound len b in
  take (Z.to_nat (b' - a')) (drop (Z.to_nat a') l).

(** ** Frames *)

Record code : Type := Code {
  co_filename : string;
  co_name : string;
  co_names : list string;
}.

(** An activation record.  The caller chain through [f_back] is finite. *)
#[warnings="-register-all"]
Inductive frame : Type := Frame {
  f_code : code;
  f_lineno : Z;
  f_locals : gmap string value;
  f_globals : gmap string value;
  f_back : option frame;
}.

(** ** Rich renderables and the console *)

Record Syntax : Type := MkSyntax {
  syn_code : string;
  syn_lexer : string;
  syn_line_numbers : bool;
  syn_start_line : Z;
  syn_highlight_lines : gset Z;
  syn_indent_guides : bool;
}.

Inductive cell : Type :=
  | CText (s : string)
  | CPretty (v : value) (max_length : Z).

Record Table : Type := MkTable {
  tbl_title : string;
  tbl_columns : list string;
  tbl_rows : list (list cell);
}.

Inductive renderable : Type :=
  | Text (markup : string)
  | Pretty (v : value) (max_length : Z)
  | Panel (body : Syntax) (title : string)
  | TableR (t : Table)
  | Traceback (e : exn).

(** What reaches the console, in order. *)
Inductive event : Type :=
  | Printed (r : renderable)
  | PrintNoNewline (msg : string)
  | Rule (title : string).


(** ** The store and the monad *)

Definition loc := positive.
Abbreviation dict := (gmap string value).

(** What is at [~/.nicerpdb.toml]: nothing; something that [open] or
    [tomllib.load] rejects with an [OSError], a [TOMLDecodeError] or
    another subclass of [Exception]; or a document that parses to a
    table. *)
Inductive config_file : Type :=
  | NoFile
  | BadFile (exc_name exc_msg : string)
  | TomlFile (loaded : dict).

Record state : Type := State {
  heap : gmap loc dict;
  linecache : gmap string (list string);
  home_config : config_file;
  console : list event;
}.

Inductive result (A : Type) : Type :=
  | Ok (a : A)
  | Raised (e : exn).
Arguments Ok {A} a.
Arguments Raised {A} e.

Definition M (A : Type) : Type := state -> result A * state.

Definition ret {A} (a : A) : M A := fun s => (Ok a, s).

Definition bind {A B} (m : M A) (k : A -> M B) : M B :=
  fun s => match m s with
           | (Ok a, s') => k a s'
           | (Raised e, s') => (Raised e, s')
           end.

Definition raise {A} (e : exn) : M A := fun s => (Raised e, s).

(** [try: body / except Exception: handler] *)
Definition try_except {A} (body : M A) (handler : exn -> M A) : M A :=
  fun s => match body s with
           | (Raised e, s') =>
               if is_Exception e then handler e s' else (Raised e, s')
           | r => r
           end.

Declare Scope py_scope.
Delimit Scope py_scope with py.
Notation "x <- m ;; k" := (bind m (fun x => k))
  (at level 100, m at next level, right associativity) : py_scope.
Notation "m ;; k" := (bind m (fun _ => k))
  (at level 100, right associativity) : py_scope.
Local Open Scope py_scope.

Definition when (b : bool) (m : M unit) : M unit := if b then m else ret tt.

(** The state after the events [evs] reached the console. *)
Definition log (s : state) (evs : list event) : state :=
  State (heap s) (linecache s) (home_config s) (console s ++ evs).

Definition emit (ev : event) : M unit :=
  fun s => (Ok tt, log s [ev]).

(** [console.print(r)] *)
Definition console_print (r : renderable) : M unit := emit (Printed r).

(** [console.rule(title)] *)
Definition console_rule (title : string) : M unit := emit (Rule title).

(** [linecache.getlines(filename)]: the lines of the file, or [[]] when
    they cannot be obtained; it never raises. *)
Definition getlines (filename : string) : M (list string) :=
  fun s => (Ok (default [] (linecache s !! filename)), s).

(** [d.copy()] on the dict object at [r]: a new object with the same
    bindings. *)
Definition dict_copy (r : loc) : M loc :=
  fun s => let r' := fresh (dom (heap s)) in
           (Ok r', State (<[r' := default ∅ (heap s !! r)]> (heap s))
                         (linecache s) (home_config s) (console s)).

(** [d.update(other)] on the dict object at [r]: the bindings of [other]
    win. *)
Definition dict_update (r : loc) (other : dict) : M unit :=
  fun s => (Ok tt, State (<[r := other ∪ default ∅ (heap s !! r)]> (heap s))
                         (linecache s) (home_config s) (console s)).

(** [d[key]] *)
Definition dict_getitem (r : loc) (key : string) : M value :=
  fun s => match default ∅ (heap s !! r) !! key with
           | Some v => (Ok v, s)
           | None => (Raised (KeyError key), s)
           end.

(** [d.get(key, dflt)] *)
Definition dict_get (r : loc) (key : string) (dflt : value) : M value :=
  fun s => (Ok (default dflt (default ∅ (heap s !! r) !! key)), s).

(** [os.path.exists(config_path)] *)
Definition config_exists : M bool :=
  fun s => (Ok (match home_config s with NoFile => false | _ => true end), s).

(** [with open(config_path, "rb") as f: tomllib.load(f)] *)
Definition tomllib_load : M dict :=
  fun s => match home_config s with
           | NoFile => (Raised (Exn (ExceptionSub "FileNotFoundError") ""), s)
           | BadFile name msg => (Raised (Exn (ExceptionSub name) msg), s)
           | TomlFile loaded => (Ok loaded, s)
           end.

(** ** debugger.py *)

(** The dict literal bound to [DEFAULT_CONFIG]. *)
Definition default_config : dict :=
  {[ "context_lines" := VInt 3;
     "show_locals" := VBool true;
     "show_stack" := VBool true ]}.

(** [load_config()]; [DEFAULT_CONFIG] is the module global it reads. *)
Definition load_config (DEFAULT_CONFIG : loc) : M loc :=
  cfg <- dict_copy DEFAULT_CONFIG ;;
  present <- config_exists ;;
  (if present : bool then
     try_except
       (loaded <- tomllib_load ;; dict_update cfg loaded)
       (fun _ =>
          console_print (Text "[yellow]Warning: error reading ~/.nicerpdb.toml[/]"))
   else ret tt) ;;
  ret cfg.

(** The module's globals once it is imported: the dict object behind
    [DEFAULT_CONFIG] and the one behind the class attribute
    [RichPdb.config]. *)
Record globals : Type := Globals {
  DEFAULT_CONFIG : loc;
  RichPdb_config : loc;
}.

(** A dict display [{...}]: a new dict object. *)
Definition dict_new (d : dict) : M loc :=
  fun s => let r := fresh (dom (heap s)) in
           (Ok r, State (<[r := d]> (heap s))
                        (linecache s) (home_config s) (console s)).

(** Executing the module body: [DEFAULT_CONFIG = {...}], then the class
    body's [config = load_config()]. *)
Definition import_debugger : M globals :=
  d <- dict_new default_config ;;
  c <- load_config d ;;
  ret (Globals d c).

(** The string order of Python's [<=] on [str]: lexicographic on code
    points. *)
Definition item_le (x y : string * value) : Prop :=
  String.le x.1 y.1.

Global Instance item_le_dec : RelDecision item_le.
Proof. intros x y. unfold item_le. apply _. Defined.

Global Instance item_le_trans : Transitive item_le.
Proof. intros x y z. unfold item_le. apply transitivity. Qed.

Global Instance item_le_total : Total item_le.
Proof. intros x y. unfold item_le. apply total, _. Qed.

(** [sorted(d.items())].  The keys of a dict are distinct, so the order
    of the tuples is the order of their keys. *)
Definition sorted_items (d : dict) : list (string * value) :=
  merge_sort item_le (map_to_list d).

(** The loop [while cur: stack.append(cur); cur = cur.f_back], entered
    with a frame. *)
Fixpoint walk_back (cur : frame) (stack : list frame) : list frame :=
  match cur with
  | Frame _ _ _ _ back =>
      let stack' := stack ++ [cur] in
      match back with
      | None => stack'
      | Some caller => walk_back caller stack'
      end
  end.

(** The frames of [_render_stack] after [stack.reverse()]. *)
Definition collect_stack (curframe : option frame) : list frame :=
  reverse (match curframe with
       | None => []
       | Some fr => walk_back fr []
       end).

(** The [ctx] cell of one stack row, from the lines [src] of the frame's
    file and its line number [ln]. *)
Definition context_excerpt (src : list string) (ln : Z) : string :=
  match src with
  | [] => ""
  | _ =>
      let a := Z.max 0 (ln - 2) in
      let b := Z.min (Z.of_nat (length src)) (ln + 1) in
      let ctx := join " " (map strip (py_slice src a b)) in
      if (120 <? String.length ctx)%nat
      then str_take 117 ctx +:+ "..."
      else ctx
  end.

(** The body of [for i, fr in enumerate(stack, start=i)]: the rows added
    to the table. *)
Fixpoint stack_rows (i : Z) (stack : list frame) : M (list (list cell)) :=
  match stack with
  | [] => ret []
  | fr :: rest =>
      let code := f_code fr in
      let fname := co_filename code in
      let ln := f_lineno fr in
      let func := co_name code in
      src <- getlines fname ;;
      let ctx := context_excerpt src ln in
      rows <- stack_rows (i + 1) rest ;;
      ret ([CText (str_of_int i); CText func;
            CText (fname +:+ ":" +:+ str_of_int ln); CText ctx] :: rows)
  end.

(** ** What the renderers are specified to show *)




(** The row the stack table has for frame [fr] at index [i], given the
    lines [src] of the frame's file. *)
Definition stack_row (src : list string) (i : Z) (fr : frame) : list cell :=
  [CText (str_of_int i);
   CText (co_name (f_code fr));
   CText (co_filename (f_code fr) +:+ ":" +:+ str_of_int (f_lineno fr));
   CText (context_excerpt src (f_lineno fr))].

(** The rows of the stack table for the session's current frame, given
    the source-line cache. *)
Definition stack_table_rows (lc : gmap string (list string))
    (cur : option frame) : list (list cell) :=
  imap (fun k fr =>
          stack_row (default [] (lc !! co_filename (f_code fr)))
                    (1 + Z.of_nat k) fr)
       (collect_stack cur).



(** The state [pdb.Pdb] keeps in the session object, as far as this
    module reads it. *)
Record Pdb : Type := MkPdb { curframe : option frame }.

(** ** class RichPdb *)

Module RichPdb.

(** An instance of the class. *)
Record t : Type := Make {
  base : Pdb;
  show_locals : value;
  context_lines : value;
  prompt : string;
}.

Section Methods.

(** The globals of the imported module. *)
Variable G : globals.

(** What the class inherits from [pdb.Pdb] and this module calls:
    [Pdb.interaction], [Pdb.default] and [Pdb._getval]. *)
Variable super_interaction : t -> option frame -> value -> M unit.
Variable super_default : t -> string -> M (option bool).
Variable _getval : t -> string -> M value.

(** [RichPdb.__init__]; [pdb0] is the object as [super().__init__]
    leaves it, a [VNone] argument is an argument left out. *)
Definition __init__ (pdb0 : Pdb) (show_locals_arg context_lines_arg : value)
  : M t :=
  sl <- match show_locals_arg with
        | VNone => dict_getitem (RichPdb_config G) "show_locals"
        | v => ret v
        end ;;
  cl <- match context_lines_arg with
        | VNone => dict_getitem (RichPdb_config G) "context_lines"
        | v => ret v
        end ;;
  ret (Make pdb0 sl cl " (nicerpdb) > ").

(** [int_expr - context] and [int_expr + context] need a number. *)
Definition int_operand (v : value) : M Z :=
  match as_int v with
  | Some z => ret z
  | None => raise (TypeError "unsupported operand type(s)")
  end.

Definition _render_source_block (self : t)
    (filename : string) (lineno : Z) (context : value) : M unit :=
  lines <- getlines filename ;;
  match lines with
  | [] => console_print
            (Text ("[italic]Cannot read source from " +:+ filename +:+ "[/]"))
  | _ =>
      c <- int_operand context ;;
      let start := Z.max 0 (lineno - 1 - c) in
      let end_ := Z.min (Z.of_nat (length lines)) (lineno - 1 + c + 1) in
      let snippet := join "" (py_slice lines start end_) in
      let syntax :=
        MkSyntax snippet "python" true (start + 1) {[ lineno ]} true in
      console_print
        (Panel syntax (filename +:+ ":" +:+ str_of_int lineno))
  end.

Definition _render_full_file (self : t)
    (filename : string) (lineno : Z) : M unit :=
  lines <- getlines filename ;;
  match lines with
  | [] => console_print
            (Text ("[italic]Cannot read file " +:+ filename +:+ "[/]"))
  | _ =>
      let text := join "" lines in
      let syntax := MkSyntax text "python" true 1 {[ lineno ]} true in
      console_print (Panel syntax ("Full source: " +:+ filename))
  end.

Definition _render_stack (self : t) : M unit :=
  let stack := collect_stack (curframe (base self)) in
  rows <- stack_rows 1 stack ;;
  console_print
    (TableR (MkTable "Stack (most recent last)"
               ["#"; "Function"; "Location"; "Context excerpt"] rows)).

(** The names [_render_vars] looks up in the globals. *)
Definition selected_names (fr : frame) : gset string :=
  list_to_set (co_names (f_code fr)) ∪ {[ "__name__"; "__file__" ]}.

Definition locals_rows (fr : frame) : list (list cell) :=
  map (fun kv => [CText kv.1; CPretty kv.2 150])
      (sorted_items (f_locals fr)).

Definition globals_rows (fr : frame) : list (list cell) :=
  let g := f_globals fr in
  omap (fun name => match g !! name with
                    | Some v => Some [CText name; CPretty v 150]
                    | None => None
                    end)
       (elements (selected_names fr)).

Definition _render_vars (self : t) (fr : frame) : M unit :=
  let locals_table := MkTable "Locals" ["Name"; "Value"] (locals_rows fr) in
  let globals_table :=
    MkTable "Globals (selected)" ["Name"; "Value"] (globals_rows fr) in
  console_print (TableR globals_table) ;;
  console_print (TableR locals_table).

(** The body of the [try] in [interaction]. *)
Definition stop_views (self : t) (frame : option frame) : M unit :=
  match frame with
  | Some fr =>
      _render_source_block self
        (co_filename (f_code fr)) (f_lineno fr) (context_lines self) ;;
      when (truthy (show_locals self)) (_render_vars self fr) ;;
      show_stack <- dict_get (RichPdb_config G) "show_stack" (VBool true) ;;
      when (truthy show_stack) (_render_stack self)
  | None => ret tt
  end.

Definition interaction (self : t)
    (frame : option frame) (traceback_obj : value) : M unit :=
  console_rule "[bold magenta]Debugger stopped[/bold magenta]" ;;
  try_except (stop_views self frame)
             (fun e => console_print (Traceback e)) ;;
  super_interaction self frame traceback_obj.

Definition default (self : t) (line : string) : M (option bool) :=
  let line := strip line in
  match line with
  | "" => ret (Some false)
  | _ =>
      try_except
        (val <- _getval self line ;;
         console_print (Pretty val 300) ;;
         ret (Some false))
        (fun _ => super_default self line)
  end.


Definition do_where (self : t) (arg : string) : M unit :=
  _render_stack self.

(** [self.curframe.f_code] when [curframe] is [None] *)
Definition the_curframe (self : t) : M frame :=
  match curframe (base self) with
  | Some fr => ret fr
  | None => raise (Exn (ExceptionSub "AttributeError") "f_code")
  end.

Definition do_list (self : t) (arg : string) : M unit :=
  fr <- the_curframe self ;;
  _render_source_block self
    (co_filename (f_code fr)) (f_lineno fr) (context_lines self).

Definition do_longlist (self : t) (arg : string) : M unit :=
  fr <- the_curframe self ;;
  _render_full_file self (co_filename (f_code fr)) (f_lineno fr).


End Methods.

End RichPdb.

(** ** Entry points *)

Definition ValueError (msg : string) : exn :=
  Exn (ExceptionSub "ValueError") msg.

Section Entry.

(** The globals of the imported module. *)
Variable G : globals.

(** What is inherited from [pdb.Pdb]: [__init__], [reset], [set_trace]
    and [interaction].  [reset] only knows the attributes of [pdb.Pdb]. *)
Variable super_init : M Pdb.
Variable super_reset : Pdb -> M Pdb.
Variable super_set_trace : RichPdb.t -> option frame -> M unit.
Variable super_interaction : RichPdb.t -> option frame -> value -> M unit.

(** The call [RichPdb(show_locals=..., context_lines=...)]. *)
Definition RichPdb_new (show_locals context_lines : value) : M RichPdb.t :=
  pdb0 <- super_init ;;
  RichPdb.__init__ G pdb0 show_locals context_lines.

(** [dbg.reset()], which the class does not override. *)
Definition reset (self : RichPdb.t) : M RichPdb.t :=
  b <- super_reset (RichPdb.base self) ;;
  ret (RichPdb.Make b (RichPdb.show_locals self) (RichPdb.context_lines self)
         (RichPdb.prompt self)).

(** [set_trace(show_locals, context_lines)]; [here] is the frame that
    [inspect.currentframe()] returns, the activation of [set_trace]
    itself. *)
Definition set_trace (here : frame) (show_locals context_lines : value)
  : M unit :=
  let frame := f_back here in
  dbg <- RichPdb_new show_locals context_lines ;;
  dbg <- reset dbg ;;
  super_set_trace dbg frame.

(** [breakpoint], which takes any positional and keyword arguments;
    [here] is the frame that [inspect.currentframe()] returns inside its
    call [set_trace()]. *)
Definition breakpoint (here : frame) (args : list value) (kwargs : dict)
  : M unit :=
  set_trace here VNone VNone.

(** [pytest_exception_interact(call, report)] of [__init__.py];
    [excinfo] is the tuple [call.excinfo._excinfo], of which the
    starred unpacking keeps the last element as [tb]. *)
Definition pytest_exception_interact (excinfo : list value) (report : value)
  : M unit :=
  match last excinfo with
  | None => raise (ValueError "not enough values to unpack")
  | Some tb =>
      debugger <- RichPdb_new (VBool true) (VInt 20) ;;
      debugger <- reset debugger ;;
      RichPdb.interaction G super_interaction debugger None tb
  end.

End Entry.


(** ** Vocabulary of the statements *)

(** The one warning of [load_config]. *)
Definition config_warning : event :=
  Printed (Text "[yellow]Warning: error reading ~/.nicerpdb.toml[/]").

(** The banner of a stop. *)
Definition banner : event :=
  Rule "[bold magenta]Debugger stopped[/bold magenta]".

(** The stack table with the rows [rows], as printed. *)
Definition stack_table (rows : list (list cell)) : event :=
  Printed (TableR (MkTable "Stack (most recent last)"
                   ["#"; "Function"; "Location"; "Context excerpt"] rows)).

Definition is_table (r : renderable) : bool :=
  match r with TableR _ => true | _ => false end.

(** What [RichPdb.config.get(key, dflt)] gives in state [s]. *)
Definition config_value (G : globals) (s : state) (key : string)
    (dflt : value) : value :=
  default dflt (default ∅ (heap s !! RichPdb_config G) !! key).

(** ** A sample program and session *)

Definition nl : string := String "010"%char EmptyString.

(** The ten lines of [prog.py], as the line cache holds them. *)
Definition prog_lines : list string :=
  map (fun l => l +:+ nl)
    ["import sys"; "";
     "def helper(x):"; "    y = str(x)"; "    return y.upper()"; "";
     "def main():"; "    v = helper(1)"; "    print(v)"; "main()"].

Definition prog_globals : dict :=
  {[ "__name__" := VStr "__main__";
     "__file__" := VStr "prog.py";
     "sys" := VObj true "<module 'sys' (built-in)>";
     "helper" := VObj true "<function helper>";
     "main" := VObj true "<function main>" ]}.

Definition module_frame : frame :=
  Frame (Code "prog.py" "<module>" ["sys"; "helper"; "main"]) 10
        prog_globals prog_globals None.

Definition main_frame : frame :=
  Frame (Code "prog.py" "main" ["helper"; "print"]) 8
        ∅ prog_globals (Some module_frame).

Definition helper_frame : frame :=
  Frame (Code "prog.py" "helper" ["str"; "upper"]) 5
        {[ "y" := VStr "a"; "x" := VInt 1 ]} prog_globals (Some main_frame).

(** The module as imported with no configuration file. *)
Definition sample_globals : globals := Globals 1%positive 2%positive.

Definition sample_state : state :=
  State {[ 1%positive := default_config; 2%positive := default_config ]}
        {[ "prog.py" := prog_lines ]} NoFile [].

(** The same, with a configuration file [show_stack = false]. *)
Definition quiet_state : state :=
  State {[ 1%positive := default_config;
           2%positive := {[ "show_stack" := VBool false ]} ∪ default_config ]}
        {[ "prog.py" := prog_lines ]}
        (TomlFile {[ "show_stack" := VBool false ]}) [].

Definition sample_session : RichPdb.t :=
  RichPdb.Make (MkPdb (Some helper_frame)) (VBool true) (VInt 3)
               " (nicerpdb) > ".


(** Stand-ins for what is inherited from [pdb.Pdb]. *)
Definition sample_loop (self : RichPdb.t) (frame : option frame)
    (traceback_obj : value) : M unit :=
  emit (PrintNoNewline (RichPdb.prompt self)).



(** Stand-ins for the inherited constructor, [reset] and [set_trace]. *)
Definition sample_init : M Pdb := ret (MkPdb (Some main_frame)).

Definition sample_reset (p : Pdb) : M Pdb := ret (MkPdb None).

Definition sample_set_trace (self : RichPdb.t) (frame : option frame)
    : M unit :=
  emit (PrintNoNewline
          (match frame with
           | Some fr => "trace " +:+ co_name (f_code fr)
           | None => "trace"
           end)).

(** A session as [reset] leaves it: no current frame. *)
Definition fresh_session : RichPdb.t :=
  RichPdb.Make (MkPdb None) (VBool true) (VInt 3) " (nicerpdb) > ".

(** The activation of [set_trace] when [helper] calls it. *)
Definition set_trace_frame : frame :=
  Frame (Code "debugger.py" "set_trace" ["inspect"; "RichPdb"]) 257
        {[ "show_locals" := VNone; "context_lines" := VNone ]} ∅
        (Some helper_frame).

(** A state in which the class configuration has lost its keys. *)
Definition bare_state : state :=
  State {[ 1%positive := default_config; 2%positive := ∅ ]}
        {[ "prog.py" := prog_lines ]} NoFile [].

(** The exception info of a failed test: type, value, traceback. *)
Definition sample_excinfo : list value :=
  [VObj true "<class 'ZeroDivisionError'>";
   VObj true "ZeroDivisionError('division by zero')";
   VObj true "<traceback object>"].

(** * Properties *)

Section Slices.
Context {A : Type}.
Implicit Types l : list A.



End Slices.

(** What [except Exception] does with a raised exception: an instance of
    [Exception] goes to the handler, anything else keeps propagating. *)
Lemma try_except_handles {A} (body : M A) (handler : exn → M A) s e s' :
  body s = (Raised e, s') → is_Exception e = true →
  try_except body handler s = handler e s'.
Proof. intros Hbody He. unfold try_except. by rewrite Hbody, He. Qed.

Lemma try_except_passes {A} (body : M A) (handler : exn → M A) s e s' :
  body s = (Raised e, s') → is_Exception e = false →
  try_except body handler s = (Raised e, s').
Proof. intros Hbody He. unfold try_except. by rewrite Hbody, He. Qed.

Lemma try_except_returns {A} (body : M A) (handler : exn → M A) s a s' :
  body s = (Ok a, s') → try_except body handler s = (Ok a, s').
Proof. intros Hbody. unfold try_except. by rewrite Hbody. Qed.


(** ** The source renderers *)

Section Source.
Variable self : RichPdb.t.

Lemma getlines_run filename s :
  getlines filename s = (Ok (default [] (linecache s !! filename)), s).
Proof. done. Qed.



End Source.

(** ** The stack renderer *)






Lemma stack_rows_run stack i s :
  stack_rows i stack s
  = (Ok (imap (fun k fr =>
                 stack_row (default [] (linecache s !! co_filename (f_code fr)))
                           (i + Z.of_nat k) fr) stack), s).
Proof.
  revert i. induction stack as [|fr rest IH]; intros i; [done|].
  simpl. unfold bind at 1. unfold getlines at 1. unfold bind at 1.
  rewrite IH. unfold ret, stack_row. rewrite Z.add_0_r.
  do 3 f_equal. apply imap_ext. intros k x _. simpl.
  do 3 f_equal. lia.
Qed.



(** ** The context excerpt *)









(** ** The variable renderer *)

Lemma log_log s evs1 evs2 : log (log s evs1) evs2 = log s (evs1 ++ evs2).
Proof. unfold log. simpl. by rewrite <- app_assoc. Qed.

Lemma heap_log s evs : heap (log s evs) = heap s.
Proof. done. Qed.


Lemma sorted_items_perm (d : dict) : sorted_items d ≡ₚ map_to_list d.
Proof. apply merge_sort_Permutation. Qed.

Lemma sorted_items_elem_of (d : dict) k v :
  (k, v) ∈ sorted_items d ↔ d !! k = Some v.
Proof. by rewrite sorted_items_perm, elem_of_map_to_list. Qed.

Lemma sorted_items_NoDup_keys (d : dict) : NoDup (sorted_items d).*1.
Proof. rewrite sorted_items_perm. apply NoDup_fst_map_to_list. Qed.

Lemma StronglySorted_strict (l : list (string * value)) :
  StronglySorted item_le l → NoDup l.*1 →
  StronglySorted (fun x y => item_le x y ∧ x.1 ≠ y.1) l.
Proof.
  induction 1 as [|x l Hl IH Hx]; intros Hnd; [constructor|].
  simpl in Hnd. apply NoDup_cons in Hnd as [Hnotin Hnd].
  constructor; [by apply IH|].
  apply Forall_forall. intros y Hy. split.
  - by eapply Forall_forall in Hx.
  - intros Heq. apply Hnotin. rewrite Heq.
    apply list_elem_of_fmap. by exists y.
Qed.

Lemma NoDup_omap_rows {A B} (f : A → option B) (key : B → A) (l : list A) :
  (∀ x y, f x = Some y → key y = x) →
  NoDup l → NoDup (omap f l).
Proof.
  intros Hkey. induction 1 as [|x l Hx Hnd IH]; simpl; [constructor|].
  destruct (f x) as [y|] eqn:Hfx; [|done].
  constructor; [|done].
  intros Hin. apply list_elem_of_omap in Hin as (x' & Hx' & Hfx').
  apply Hkey in Hfx, Hfx'. congruence.
Qed.

(** C8: the variable render prints the globals table and then the locals
    table.  The locals rows are the bindings of the frame's locals, each
    once, in strictly increasing order of their names; the globals rows
    are, each once, the global bindings whose name is among the names the
    frame's code references or is [__name__] or [__file__]. *)
Theorem vars_render_tables (self : RichPdb.t) (fr : frame) (s : state) :
  ∃ (grows lrows : list (list cell)) (items : list (string * value)),
    RichPdb._render_vars self fr s
      = (Ok tt, log s
           [Printed (TableR (MkTable "Globals (selected)" ["Name"; "Value"] grows));
            Printed (TableR (MkTable "Locals" ["Name"; "Value"] lrows))])
    ∧ lrows = map (fun kv => [CText kv.1; CPretty kv.2 150]) items
    ∧ items ≡ₚ map_to_list (f_locals fr)
    ∧ (∀ k v, (k, v) ∈ items ↔ f_locals fr !! k = Some v)
    ∧ StronglySorted (fun x y => String.le x.1 y.1 ∧ x.1 ≠ y.1) items
    ∧ NoDup grows
    ∧ (∀ row, row ∈ grows ↔
         ∃ name v, row = [CText name; CPretty v 150]
                   ∧ f_globals fr !! name = Some v
                   ∧ (name ∈ co_names (f_code fr)
                      ∨ name = "__name__" ∨ name = "__file__")).
Proof.
  exists (RichPdb.globals_rows fr), (RichPdb.locals_rows fr),
    (sorted_items (f_locals fr)).
  split_and!.
  - unfold RichPdb._render_vars, bind, console_print, emit.
    by rewrite log_log.
  - done.
  - apply sorted_items_perm.
  - apply sorted_items_elem_of.
  - apply StronglySorted_strict; [|apply sorted_items_NoDup_keys].
    apply StronglySorted_merge_sort; apply _.
  - unfold RichPdb.globals_rows.
    apply (NoDup_omap_rows _
             (fun row => match row with CText name :: _ => name | _ => "" end));
      [|apply NoDup_elements].
    intros name row Hrow. by destruct (f_globals fr !! name); simplify_eq.
  - intros row. unfold RichPdb.globals_rows. rewrite list_elem_of_omap.
    split.
    + intros (name & Hname & Hrow).
      destruct (f_globals fr !! name) as [v|] eqn:Hg; [|done].
      simplify_eq. exists name, v. split_and!; [done..|].
      apply elem_of_elements in Hname. unfold RichPdb.selected_names in Hname.
      set_solver.
    + intros (name & v & -> & Hg & Hsel).
      exists name. rewrite Hg. split; [|done].
      apply elem_of_elements. unfold RichPdb.selected_names. set_solver.
Qed.

(** ** The configuration loader *)

Lemma load_config_run (D : loc) (s : state) :
  let r := fresh (dom (heap s)) in
  let d0 := default ∅ (heap s !! D) in
  load_config D s
  = (Ok r,
     match home_config s with
     | NoFile =>
         State (<[r := d0]> (heap s)) (linecache s) (home_config s) (console s)
     | BadFile _ _ =>
         State (<[r := d0]> (heap s)) (linecache s) (home_config s)
               (console s ++ [config_warning])
     | TomlFile loaded =>
         State (<[r := loaded ∪ d0]> (heap s)) (linecache s) (home_config s)
               (console s)
     end).
Proof.
  intros r d0.
  unfold load_config, bind, dict_copy, config_exists, try_except,
    tomllib_load, dict_update, console_print, emit, ret, log.
  simpl. fold r d0.
  destruct (home_config s) as [|name msg|loaded] eqn:Hcf; simpl.
  - done.
  - done.
  - rewrite lookup_insert_eq, insert_insert_eq. done.
Qed.

Lemma fresh_loc_ne (h : gmap loc dict) (r : loc) :
  is_Some (h !! r) → fresh (dom h) ≠ r.
Proof.
  intros Hr Heq. apply (is_fresh (dom h)). rewrite Heq.
  by apply elem_of_dom.
Qed.

(** Importing the module leaves [DEFAULT_CONFIG] bound to the built-in
    defaults and [RichPdb.config] to the loaded configuration. *)
Lemma import_debugger_run (s0 : state) :
  ∃ (G : globals) (s : state),
    import_debugger s0 = (Ok G, s)
    ∧ DEFAULT_CONFIG G ≠ RichPdb_config G
    ∧ heap s !! DEFAULT_CONFIG G = Some default_config
    ∧ heap s !! RichPdb_config G
      = Some (match home_config s0 with
              | TomlFile loaded => loaded ∪ default_config
              | _ => ∅ ∪ default_config
              end).
Proof.
  unfold import_debugger, bind at 1, dict_new.
  set (d := fresh (dom (heap s0))).
  set (s1 := State (<[d := default_config]> (heap s0)) (linecache s0)
                   (home_config s0) (console s0)).
  unfold bind. rewrite (load_config_run d s1). unfold ret.
  set (c := fresh (dom (heap s1))).
  assert (Hcd : c ≠ d).
  { apply fresh_loc_ne. unfold s1. simpl. rewrite lookup_insert_eq. eauto. }
  eexists _, _. split; [done|]. simpl.
  rewrite lookup_insert_eq. simpl.
  split; [done|].
  destruct (home_config s0) as [|name msg|loaded]; simpl;
    rewrite lookup_insert_eq, lookup_insert_ne, lookup_insert_eq by done;
    rewrite ?(left_id_L ∅ (∪)); done.
Qed.

(** C5: in a state where [DEFAULT_CONFIG] holds the built-in defaults,
    [load_config] always returns normally with a new dict object.  With no
    file that dict is the defaults and nothing is printed; with a file
    that fails to read or parse it is the defaults and exactly one
    warning is printed; with a file that parses, it is the parsed table
    merged over the defaults, key by key and whatever the keys and values
    are, and nothing is printed. *)
Theorem load_config_total (D : loc) (s : state) :
  heap s !! D = Some default_config →
  ∃ (cfg : loc) (s' : state),
    load_config D s = (Ok cfg, s')
    ∧ heap s !! cfg = None
    ∧ match home_config s with
      | NoFile =>
          heap s' !! cfg = Some default_config ∧ console s' = console s
      | BadFile _ _ =>
          heap s' !! cfg = Some default_config
          ∧ console s' = console s ++ [config_warning]
      | TomlFile loaded =>
          heap s' !! cfg = Some (loaded ∪ default_config)
          ∧ console s' = console s
          ∧ ∀ key, (loaded ∪ default_config) !! key
                   = match loaded !! key with
                     | Some v => Some v
                     | None => default_config !! key
                     end
      end.
Proof.
  intros HD. eexists _, _. split; [apply load_config_run|].
  rewrite HD. simpl. split.
  - apply not_elem_of_dom, is_fresh.
  - destruct (home_config s) as [|name msg|loaded]; simpl;
      rewrite lookup_insert_eq; split_and!; try done.
    intros key. rewrite lookup_union.
    destruct (loaded !! key), (default_config !! key); done.
Qed.

(** C10: calling [load_config] twice while the configuration file stays
    the same returns two distinct, newly allocated dict objects that hold
    the same mapping, the parsed table (if any) merged over the defaults;
    the second call leaves the first result as it was, and neither call
    changes the dict behind [DEFAULT_CONFIG]. *)
Theorem load_config_idempotent (D : loc) (defaults : dict) (s : state) :
  heap s !! D = Some defaults →
  ∃ (cfg1 cfg2 : loc) (s1 s2 : state) (merged : dict),
    load_config D s = (Ok cfg1, s1)
    ∧ load_config D s1 = (Ok cfg2, s2)
    ∧ home_config s1 = home_config s
    ∧ heap s1 !! cfg1 = Some merged
    ∧ heap s2 !! cfg1 = Some merged
    ∧ heap s2 !! cfg2 = Some merged
    ∧ cfg1 ≠ cfg2 ∧ cfg1 ≠ D ∧ cfg2 ≠ D
    ∧ heap s1 !! D = Some defaults
    ∧ heap s2 !! D = Some defaults
    ∧ heap s !! cfg1 = None
    ∧ heap s1 !! cfg2 = None
    ∧ merged = match home_config s with
               | TomlFile loaded => loaded ∪ defaults
               | _ => defaults
               end.
Proof.
  intros HD.
  pose proof (load_config_run D s) as Hrun1. simpl in Hrun1.
  rewrite HD in Hrun1. simpl in Hrun1.
  set (cfg1 := fresh (dom (heap s))) in *.
  assert (Hne1 : cfg1 ≠ D) by (apply fresh_loc_ne; eauto).
  set (merged := match home_config s with
                 | TomlFile loaded => loaded ∪ defaults
                 | _ => defaults
                 end).
  match type of Hrun1 with _ = (_, ?st) => set (s1 := st) in * end.
  assert (Hhc : home_config s1 = home_config s)
    by (unfold s1; by destruct (home_config s)).
  assert (Hh1 : heap s1 = <[cfg1 := merged]> (heap s))
    by (unfold s1, merged; by destruct (home_config s)).
  assert (HD1 : heap s1 !! D = Some defaults)
    by (rewrite Hh1, lookup_insert_ne; done).
  pose proof (load_config_run D s1) as Hrun2. simpl in Hrun2.
  rewrite HD1 in Hrun2. simpl in Hrun2.
  set (cfg2 := fresh (dom (heap s1))) in *.
  assert (Hne2 : cfg2 ≠ D) by (apply fresh_loc_ne; eauto).
  assert (Hne12 : cfg1 ≠ cfg2).
  { intros Heq. symmetry in Heq. revert Heq. apply fresh_loc_ne.
    rewrite Hh1, lookup_insert_eq. eauto. }
  match type of Hrun2 with _ = (_, ?st) => set (s2 := st) in * end.
  assert (Hh2 : heap s2 = <[cfg2 := merged]> (heap s1)).
  { unfold s2, merged. rewrite Hhc. by destruct (home_config s). }
  exists cfg1, cfg2, s1, s2, merged.
  split_and!; try done.
  - by rewrite Hh1, lookup_insert_eq.
  - by rewrite Hh2, lookup_insert_ne, Hh1, lookup_insert_eq.
  - by rewrite Hh2, lookup_insert_eq.
  - by rewrite Hh2, lookup_insert_ne.
  - apply not_elem_of_dom, is_fresh.
  - apply not_elem_of_dom, is_fresh.
Qed.

(** ** The session: construction and stops *)

Section Session.
Variable G : globals.
Variable super_interaction : RichPdb.t → option frame → value → M unit.
Variable super_default : RichPdb.t → string → M (option bool).
Variable _getval : RichPdb.t → string → M value.

Lemma render_source_block_outcome self filename lineno context s :
  (∃ r, RichPdb._render_source_block self filename lineno context s
          = (Ok tt, log s [Printed r]) ∧ is_table r = false)
  ∨ (∃ e, RichPdb._render_source_block self filename lineno context s
            = (Raised e, s) ∧ is_Exception e = true).
Proof.
  unfold RichPdb._render_source_block, bind. rewrite getlines_run.
  destruct (default [] (linecache s !! filename)) as [|l0 lines].
  - left. by eexists.
  - unfold RichPdb.int_operand.
    destruct (as_int context) as [c|].
    + left. by eexists.
    + right. by eexists.
Qed.

Lemma render_stack_run self s :
  RichPdb._render_stack self s
  = (Ok tt, log s [Printed (TableR (MkTable "Stack (most recent last)"
                     ["#"; "Function"; "Location"; "Context excerpt"]
                     (stack_table_rows (linecache s)
                        (curframe (RichPdb.base self)))))]).
Proof.
  unfold RichPdb._render_stack, bind. by rewrite stack_rows_run.
Qed.

Lemma render_vars_run self fr s :
  RichPdb._render_vars self fr s
  = (Ok tt, log s
       [Printed (TableR (MkTable "Globals (selected)" ["Name"; "Value"]
                         (RichPdb.globals_rows fr)));
        Printed (TableR (MkTable "Locals" ["Name"; "Value"]
                         (RichPdb.locals_rows fr)))]).
Proof.
  unfold RichPdb._render_vars, bind, console_print, emit.
  by rewrite log_log.
Qed.

(** The events of the three views of a stop at frame [fr], when the
    source view does not fail. *)
Lemma stop_views_outcome self fr s :
  (∃ r,
     RichPdb.stop_views G self (Some fr) s
     = (Ok tt, log s
          ([Printed r]
           ++ (if truthy (RichPdb.show_locals self)
               then [Printed (TableR (MkTable "Globals (selected)"
                                      ["Name"; "Value"]
                                      (RichPdb.globals_rows fr)));
                     Printed (TableR (MkTable "Locals" ["Name"; "Value"]
                                      (RichPdb.locals_rows fr)))]
               else [])
           ++ (if truthy (config_value G s "show_stack" (VBool true))
               then [Printed (TableR (MkTable "Stack (most recent last)"
                              ["#"; "Function"; "Location"; "Context excerpt"]
                              (stack_table_rows (linecache s)
                                 (curframe (RichPdb.base self)))))]
               else [])))
     ∧ is_table r = false)
  ∨ (∃ e, RichPdb.stop_views G self (Some fr) s = (Raised e, s)
          ∧ is_Exception e = true).
Proof.
  unfold RichPdb.stop_views.
  destruct (render_source_block_outcome self (co_filename (f_code fr))
              (f_lineno fr) (RichPdb.context_lines self) s)
    as [(r & Hsrc & Hr)|(e & Hsrc & He)].
  - left. exists r. split; [|done].
    unfold bind at 1. rewrite Hsrc.
    unfold bind, when, dict_get.
    destruct (truthy (RichPdb.show_locals self)).
    + rewrite render_vars_run. rewrite !heap_log.
      fold (config_value G s "show_stack" (VBool true)).
      destruct (truthy (config_value G s "show_stack" (VBool true))).
      * rewrite render_stack_run. by rewrite !log_log.
      * unfold ret. rewrite !log_log. by rewrite app_nil_r.
    + unfold ret at 1. rewrite !heap_log.
      fold (config_value G s "show_stack" (VBool true)).
      destruct (truthy (config_value G s "show_stack" (VBool true))).
      * rewrite render_stack_run. by rewrite !log_log.
      * unfold ret. by rewrite app_nil_r.
  - right. exists e. split; [|done]. unfold bind at 1. by rewrite Hsrc.
Qed.


(** C9: with the class configuration being a parsed table [loaded]
    merged over the built-in defaults ([loaded] is empty when no file
    was read), the constructor never fails; the resolved [show_locals]
    and [context_lines] are the explicit arguments when given, and
    otherwise the configuration's entries, which are the defaults
    [True] and [3] unless the file sets them.  Whether a stop whose
    views complete shows the stack table depends on the configuration's
    [show_stack] entry alone, for every session object. *)
Theorem session_settings_resolved (loaded : dict) (pdb0 : Pdb)
    (show_locals_arg context_lines_arg : value) (s : state) :
  heap s !! RichPdb_config G = Some (loaded ∪ default_config) →
  let conf key dflt := default dflt (loaded !! key) in
  ∃ self : RichPdb.t,
    RichPdb.__init__ G pdb0 show_locals_arg context_lines_arg s = (Ok self, s)
    ∧ RichPdb.show_locals self
      = (if decide (show_locals_arg = VNone)
         then conf "show_locals" (VBool true) else show_locals_arg)
    ∧ RichPdb.context_lines self
      = (if decide (context_lines_arg = VNone)
         then conf "context_lines" (VInt 3) else context_lines_arg)
    ∧ (∀ (session : RichPdb.t) (fr : frame) (s' : state),
         RichPdb.stop_views G session (Some fr) s = (Ok tt, s') →
         ((∃ rows, stack_table rows ∈ drop (length (console s)) (console s'))
          ↔ truthy (conf "show_stack" (VBool true)) = true)).
Proof.
  intros Hcfg conf.
  assert (Hget : ∀ key dflt, default_config !! key = Some dflt →
            dict_getitem (RichPdb_config G) key s = (Ok (conf key dflt), s)).
  { intros key dflt Hd. unfold dict_getitem. rewrite Hcfg. simpl.
    rewrite lookup_union, Hd. unfold conf.
    by destruct (loaded !! key). }
  assert (Hsl : dict_getitem (RichPdb_config G) "show_locals" s
                = (Ok (conf "show_locals" (VBool true)), s))
    by (by apply Hget).
  assert (Hcl : dict_getitem (RichPdb_config G) "context_lines" s
                = (Ok (conf "context_lines" (VInt 3)), s))
    by (by apply Hget).
  exists (RichPdb.Make pdb0
            (if decide (show_locals_arg = VNone)
             then conf "show_locals" (VBool true) else show_locals_arg)
            (if decide (context_lines_arg = VNone)
             then conf "context_lines" (VInt 3) else context_lines_arg)
            " (nicerpdb) > ").
  split_and!; [|done|done|].
  - unfold RichPdb.__init__, bind.
    destruct show_locals_arg, context_lines_arg; simpl;
      rewrite ?Hsl, ?Hcl; unfold ret; simpl; rewrite ?Hcl; done.
  - intros session fr s' Hviews.
    assert (Hss : config_value G s "show_stack" (VBool true)
                  = conf "show_stack" (VBool true)).
    { unfold config_value. rewrite Hcfg. simpl. rewrite lookup_union.
      unfold conf. by destruct (loaded !! "show_stack"). }
    destruct (stop_views_outcome session fr s)
      as [(r & Hrun & Hr)|(e & Hrun & _)]; [|congruence].
    rewrite Hrun, Hss in Hviews. injection Hviews as <-.
    unfold log. simpl console. rewrite drop_app_length.
    unfold stack_table.
    destruct (truthy (conf "show_stack" (VBool true))).
    + split; [done|]. intros _. eexists.
      apply elem_of_cons. right. apply elem_of_app. right.
      apply list_elem_of_singleton. reflexivity.
    + split; [|done]. intros [rows Hin].
      rewrite app_nil_r in Hin.
      apply elem_of_cons in Hin as [Hin|Hin].
      * by simplify_eq.
      * destruct (truthy (RichPdb.show_locals session));
          [|by apply elem_of_nil in Hin].
        apply elem_of_cons in Hin as [Hin|Hin]; [done|].
        apply list_elem_of_singleton in Hin. done.
Qed.

End Session.

(** ** The statements at the sample session *)

Example strip_example :
  strip (String "009"%char "  y = str(x)  " +:+ nl) = "y = str(x)"
  ∧ strip ("    return y.upper()" +:+ nl) = "return y.upper()"
  ∧ strip ("a  b" +:+ nl) = "a  b"
  ∧ strip nl = "".
Proof. by vm_compute. Qed.

Example long_line_excerpt :
  let long := String.concat "" (replicate 50 "abcd") in
  String.length (strip long) = 200%nat
  ∧ String.length (context_excerpt [long] 1) = 120%nat
  ∧ String.substring 117 3 (context_excerpt [long] 1) = "...".
Proof. by vm_compute. Qed.

Example sample_import :
  import_debugger (State ∅ {[ "prog.py" := prog_lines ]} NoFile [])
  = (Ok sample_globals, sample_state).
Proof. by vm_compute. Qed.

Example sample_vars_rows :
  RichPdb.locals_rows helper_frame
  = [[CText "x"; CPretty (VInt 1) 150]; [CText "y"; CPretty (VStr "a") 150]]
  ∧ length (RichPdb.globals_rows helper_frame) = 2%nat
  ∧ length (RichPdb.globals_rows module_frame) = 5%nat.
Proof. by vm_compute. Qed.

Example sample_stop_quiet :
  ∃ panel globals_table,
    console (RichPdb.stop_views sample_globals sample_session
               (Some helper_frame) quiet_state).2
    = [Printed panel;
       Printed (TableR globals_table);
       Printed (TableR (MkTable "Locals" ["Name"; "Value"]
                  [[CText "x"; CPretty (VInt 1) 150];
                   [CText "y"; CPretty (VStr "a") 150]]))].
Proof. eexists _, _. by vm_compute. Qed.





Lemma load_config_total_witness :
  heap quiet_state !! 1%positive = Some default_config
  ∧ ∃ (cfg : loc) (s' : state),
      load_config 1%positive quiet_state = (Ok cfg, s')
      ∧ heap s' !! cfg
        = Some ({[ "show_stack" := VBool false ]} ∪ default_config)
      ∧ console s' = console quiet_state.
Proof.
  assert (H1 : heap quiet_state !! 1%positive = Some default_config)
    by reflexivity.
  split; [done|].
  destruct (load_config_total 1%positive quiet_state H1)
    as (cfg & s' & Hrun & _ & Hheap & Hcon & _).
  exists cfg, s'. split_and!; [exact Hrun|exact Hheap|exact Hcon].
Defined.

Lemma load_config_idempotent_witness :
  heap quiet_state !! 1%positive = Some default_config
  ∧ ∃ (cfg1 cfg2 : loc) (s1 s2 : state) (merged : dict),
      load_config 1%positive quiet_state = (Ok cfg1, s1)
      ∧ load_config 1%positive s1 = (Ok cfg2, s2)
      ∧ heap s2 !! cfg1 = Some merged
      ∧ heap s2 !! cfg2 = Some merged
      ∧ cfg1 ≠ cfg2
      ∧ heap s2 !! 1%positive = Some default_config.
Proof.
  assert (H1 : heap quiet_state !! 1%positive = Some default_config)
    by reflexivity.
  split; [done|].
  destruct (load_config_idempotent 1%positive default_config quiet_state H1)
    as (cfg1 & cfg2 & s1 & s2 & merged & Hr1 & Hr2 & _ & _ & Hm1 & Hm2
        & Hne & _ & _ & _ & HD & _).
  exists cfg1, cfg2, s1, s2, merged.
  split_and!; [exact Hr1|exact Hr2|exact Hm1|exact Hm2|exact Hne|exact HD].
Defined.

Lemma session_settings_resolved_witness :
  heap quiet_state !! RichPdb_config sample_globals
  = Some ({[ "show_stack" := VBool false ]} ∪ default_config)
  ∧ ∃ self : RichPdb.t,
      RichPdb.__init__ sample_globals (MkPdb None) VNone (VInt 20) quiet_state
      = (Ok self, quiet_state)
      ∧ RichPdb.show_locals self = VBool true
      ∧ RichPdb.context_lines self = VInt 20.
Proof.
  assert (H1 : heap quiet_state !! RichPdb_config sample_globals
               = Some ({[ "show_stack" := VBool false ]} ∪ default_config))
    by reflexivity.
  split; [done|].
  destruct (session_settings_resolved sample_globals
              {[ "show_stack" := VBool false ]} (MkPdb None) VNone (VInt 20)
              quiet_state H1)
    as (self & Hinit & Hsl & Hcl & _).
  exists self. split_and!; [exact Hinit|exact Hsl|exact Hcl].
Defined.




(** * Further properties *)

(** ** Windows of a file *)

Section Windows.
Context {A : Type}.
Implicit Types l : list A.

Lemma py_slice_nonneg l (a b : Z) :
  0 ≤ a → 0 ≤ b →
  py_slice l a b
  = take (Z.to_nat b - Z.to_nat a) (drop (Z.to_nat a) l).
Proof.
  intros Ha Hb. unfold py_slice, slice_bound.
  destruct (Z.ltb_spec a 0); [lia|]. destruct (Z.ltb_spec b 0); [lia|].
  set (L := Z.of_nat (length l)).
  destruct (decide (a ≤ L)) as [HaL|HaL].
  - rewrite (Z.min_l a) by done.
    destruct (decide (b ≤ L)) as [HbL|HbL].
    + rewrite (Z.min_l b) by done. f_equal. lia.
    + rewrite (Z.min_r b) by lia.
      rewrite !take_ge; [done| |]; rewrite length_drop; lia.
  - rewrite (Z.min_r a) by lia.
    rewrite !drop_ge by lia. by rewrite !take_nil.
Qed.




End Windows.

Section Listing.
Variable self : RichPdb.t.





End Listing.

(** ** The listing commands *)

(** X4: the [list] and [longlist] commands of a session without a
    current frame raise [AttributeError], which is an instance of
    [Exception], and print nothing. *)
Theorem listing_without_frame (self : RichPdb.t) (arg : string) (s : state) :
  curframe (RichPdb.base self) = None →
  ∃ e, is_Exception e = true
       ∧ exn_class e = ExceptionSub "AttributeError"
       ∧ RichPdb.do_list self arg s = (Raised e, s)
       ∧ RichPdb.do_longlist self arg s = (Raised e, s).
Proof.
  intros Hcur. eexists. split_and!; [| |
    unfold RichPdb.do_list, bind, RichPdb.the_curframe; rewrite Hcur; done |
    unfold RichPdb.do_longlist, bind, RichPdb.the_curframe; rewrite Hcur; done];
    done.
Qed.


(** ** Stops *)

Section Stops.
Variable G : globals.
Variable super_interaction : RichPdb.t → option frame → value → M unit.




(** X8: the stack table of a stop is built from the session's own
    [curframe], not from the frame the stop is entered with: in a
    completed stop every stack table printed has the rows of
    [self.curframe]'s caller chain, so a session whose [curframe] is
    unset shows a stack table without rows, as does its [where]
    command. *)
Theorem stack_view_follows_curframe (self : RichPdb.t) (fr : frame)
    (s s' : state) :
  RichPdb.stop_views G self (Some fr) s = (Ok tt, s') →
  (∀ rows, stack_table rows ∈ drop (length (console s)) (console s') →
           rows = stack_table_rows (linecache s)
                    (curframe (RichPdb.base self)))
  ∧ (curframe (RichPdb.base self) = None →
       (∀ rows, stack_table rows ∈ drop (length (console s)) (console s') →
                rows = [])
       ∧ ∀ arg, RichPdb.do_where self arg s = (Ok tt, log s [stack_table []])).
Proof.
  intros Hviews.
  assert (Hrows : ∀ rows,
            stack_table rows ∈ drop (length (console s)) (console s') →
            rows = stack_table_rows (linecache s)
                     (curframe (RichPdb.base self))).
  { intros rows Hin.
    destruct (stop_views_outcome G self fr s)
      as [(r & Hrun & Hr)|(e & Hrun & _)]; [|congruence].
    rewrite Hrun in Hviews. injection Hviews as <-.
    unfold log in Hin. simpl console in Hin. rewrite drop_app_length in Hin.
    unfold stack_table in Hin.
    apply elem_of_cons in Hin as [Hin|Hin]; [by simplify_eq|].
    apply elem_of_app in Hin as [Hin|Hin].
    - destruct (truthy (RichPdb.show_locals self));
        [|by apply elem_of_nil in Hin].
      apply elem_of_cons in Hin as [Hin|Hin]; [done|].
      by apply list_elem_of_singleton in Hin.
    - destruct (truthy (config_value G s "show_stack" (VBool true)));
        [|by apply elem_of_nil in Hin].
      apply list_elem_of_singleton in Hin. by simplify_eq. }
  split; [done|].
  intros Hnone. split.
  - intros rows Hin. rewrite (Hrows rows Hin), Hnone. done.
  - intros arg. unfold RichPdb.do_where. rewrite render_stack_run, Hnone. done.
Qed.

End Stops.

(** ** Sizes of the variable tables *)

Lemma length_omap_le {A B} (f : A → option B) (l : list A) :
  (length (omap f l) ≤ length l)%nat.
Proof.
  induction l as [|x l IH]; csimpl; [done|].
  destruct (f x); csimpl; lia.
Qed.

Lemma size_union_le (X Y : gset string) : (size (X ∪ Y) ≤ size X + size Y)%nat.
Proof.
  rewrite size_union_alt. apply Nat.add_le_mono_l, subseteq_size.
  apply subseteq_difference_l. done.
Qed.

Lemma size_list_to_set_le (l : list string) :
  (size (list_to_set l : gset string) ≤ length l)%nat.
Proof.
  induction l as [|x l IH]; simpl.
  - done.
  - etrans; [apply size_union_le|]. rewrite size_singleton. lia.
Qed.

(** X10: the locals table has one row per local variable, and the
    globals table has at most one row per referenced name plus two, and
    never more rows than the frame has globals. *)
Theorem vars_rows_counts (fr : frame) :
  length (RichPdb.locals_rows fr) = size (f_locals fr)
  ∧ (length (RichPdb.globals_rows fr) ≤ length (co_names (f_code fr)) + 2)%nat
  ∧ (length (RichPdb.globals_rows fr) ≤ size (f_globals fr))%nat.
Proof.
  split_and!.
  - unfold RichPdb.locals_rows. rewrite length_map.
    unfold sorted_items. rewrite merge_sort_Permutation.
    apply length_map_to_list.
  - unfold RichPdb.globals_rows.
    etrans; [apply length_omap_le|].
    fold (size (RichPdb.selected_names fr)).
    unfold RichPdb.selected_names.
    etrans; [apply size_union_le|].
    apply Nat.add_le_mono.
    + apply size_list_to_set_le.
    + etrans; [apply size_union_le|]. by rewrite !size_singleton.
  - unfold RichPdb.globals_rows.
    set (f := fun name : string =>
                match f_globals fr !! name with
                | Some v => Some [CText name; CPretty v 150]
                | None => None
                end).
    assert (Hsub : omap f (elements (RichPdb.selected_names fr))
                   ⊆+ (fun kv => [CText kv.1; CPretty kv.2 150])
                       <$> map_to_list (f_globals fr)).
    { apply NoDup_submseteq.
      - apply (NoDup_omap_rows _
          (fun row => match row with CText name :: _ => name | _ => "" end));
          [|apply NoDup_elements].
        intros name row Hrow. unfold f in Hrow.
        by destruct (f_globals fr !! name); simplify_eq.
      - intros row Hin. apply list_elem_of_omap in Hin as (name & _ & Hrow).
        unfold f in Hrow.
        destruct (f_globals fr !! name) as [v|] eqn:Hg; [|done].
        simplify_eq. apply list_elem_of_fmap. exists (name, v).
        split; [done|]. by apply elem_of_map_to_list. }
    apply submseteq_length in Hsub.
    by rewrite length_fmap, length_map_to_list in Hsub.
Qed.

(** ** Configuration objects *)

(** X11: [load_config] allocates its result and touches nothing else:
    every dict object that existed before has the same content after the
    call, the line cache and the configuration file are as before, and
    the console gained either nothing or the one warning. *)
Theorem load_config_frame (D : loc) (s : state) :
  ∃ (cfg : loc) (s' : state),
    load_config D s = (Ok cfg, s')
    ∧ heap s !! cfg = None
    ∧ (∀ r, r ≠ cfg → heap s' !! r = heap s !! r)
    ∧ linecache s' = linecache s
    ∧ home_config s' = home_config s
    ∧ (console s' = console s ∨ console s' = console s ++ [config_warning]).
Proof.
  eexists _, _. split; [apply load_config_run|].
  split; [apply not_elem_of_dom, is_fresh|].
  destruct (home_config s) as [|name msg|loaded]; simpl;
    (split_and!; [intros r Hr; by rewrite lookup_insert_ne|done|done|auto]).
Qed.

(** X12: after the module is imported, [RichPdb.config] and
    [DEFAULT_CONFIG] are two dict objects: updating [RichPdb.config]
    with any table changes the class configuration and leaves the
    built-in defaults as they are. *)
Theorem config_not_aliased (s0 : state) (changes : dict) :
  ∃ (G : globals) (s s' : state) (loaded : dict),
    import_debugger s0 = (Ok G, s)
    ∧ heap s !! RichPdb_config G = Some (loaded ∪ default_config)
    ∧ dict_update (RichPdb_config G) changes s = (Ok tt, s')
    ∧ heap s' !! RichPdb_config G
      = Some (changes ∪ (loaded ∪ default_config))
    ∧ heap s' !! DEFAULT_CONFIG G = Some default_config.
Proof.
  destruct (import_debugger_run s0) as (G & s & Himp & Hne & HD & HC).
  exists G, s.
  eexists _, (match home_config s0 with
              | TomlFile loaded => loaded
              | _ => ∅
              end).
  split_and!.
  - done.
  - rewrite HC. by destruct (home_config s0).
  - done.
  - simpl. rewrite lookup_insert_eq, HC. simpl.
    by destruct (home_config s0).
  - simpl. by rewrite lookup_insert_ne.
Qed.

Section Construction.
Variable G : globals.

Lemma init_run (loaded : dict) (pdb0 : Pdb) (sl cl : value) (s : state) :
  heap s !! RichPdb_config G = Some (loaded ∪ default_config) →
  RichPdb.__init__ G pdb0 sl cl s
  = (Ok (RichPdb.Make pdb0
           (if decide (sl = VNone)
            then default (VBool true) (loaded !! "show_locals") else sl)
           (if decide (cl = VNone)
            then default (VInt 3) (loaded !! "context_lines") else cl)
           " (nicerpdb) > "), s).
Proof.
  intros Hcfg.
  assert (Hget : ∀ key dflt, default_config !! key = Some dflt →
            dict_getitem (RichPdb_config G) key s
            = (Ok (default dflt (loaded !! key)), s)).
  { intros key dflt Hd. unfold dict_getitem. rewrite Hcfg. simpl.
    rewrite lookup_union, Hd. by destruct (loaded !! key). }
  pose proof (Hget "show_locals" (VBool true) eq_refl) as Hsl.
  pose proof (Hget "context_lines" (VInt 3) eq_refl) as Hcl.
  unfold RichPdb.__init__, bind.
  destruct sl, cl; simpl; rewrite ?Hsl, ?Hcl; unfold ret; simpl;
    rewrite ?Hcl; done.
Qed.

(** X13: what the constructor needs of the class configuration.  When
    both settings are given explicitly it reads nothing: whatever the
    configuration holds, it returns the session with exactly these
    settings and the fixed prompt.  When a setting is left out and the
    configuration lacks its key, it raises [KeyError] for that key
    ([show_locals] is looked up first) and builds no session. *)
Theorem init_config_lookups (cfg : dict) (pdb0 : Pdb) (s : state) :
  heap s !! RichPdb_config G = Some cfg →
  (∀ sl cl, sl ≠ VNone → cl ≠ VNone →
     RichPdb.__init__ G pdb0 sl cl s
     = (Ok (RichPdb.Make pdb0 sl cl " (nicerpdb) > "), s))
  ∧ (cfg !! "show_locals" = None →
       ∀ cl, RichPdb.__init__ G pdb0 VNone cl s
             = (Raised (KeyError "show_locals"), s))
  ∧ (cfg !! "context_lines" = None →
       ∀ sl, sl ≠ VNone →
         RichPdb.__init__ G pdb0 sl VNone s
         = (Raised (KeyError "context_lines"), s)).
Proof.
  intros Hcfg. split_and!.
  - intros sl cl Hsl Hcl. unfold RichPdb.__init__, bind.
    by destruct sl, cl.
  - intros Hnone cl. unfold RichPdb.__init__, bind, dict_getitem.
    rewrite Hcfg. simpl. by rewrite Hnone.
  - intros Hnone sl Hsl. unfold RichPdb.__init__, bind, dict_getitem.
    destruct sl; try done; simpl; rewrite Hcfg; simpl; by rewrite Hnone.
Qed.
End Construction.

(** X14: once the module is imported, constructing a session never
    fails, whatever the configuration file holds and whatever the
    arguments are: an explicit argument is kept as it is, and a setting
    left out is the file's entry, of any type, or else the built-in
    default. *)
Theorem construct_after_import (s0 : state) (pdb0 : Pdb) (sl cl : value) :
  ∃ (G : globals) (s : state) (loaded : dict) (self : RichPdb.t),
    import_debugger s0 = (Ok G, s)
    ∧ loaded = match home_config s0 with
               | TomlFile loaded => loaded
               | _ => ∅
               end
    ∧ RichPdb.__init__ G pdb0 sl cl s = (Ok self, s)
    ∧ RichPdb.base self = pdb0
    ∧ RichPdb.show_locals self
      = (if decide (sl = VNone)
         then default (VBool true) (loaded !! "show_locals") else sl)
    ∧ RichPdb.context_lines self
      = (if decide (cl = VNone)
         then default (VInt 3) (loaded !! "context_lines") else cl).
Proof.
  destruct (import_debugger_run s0) as (G & s & Himp & Hne & HD & HC).
  set (loaded := match home_config s0 with
                 | TomlFile loaded => loaded
                 | _ => ∅
                 end).
  assert (Hcfg : heap s !! RichPdb_config G = Some (loaded ∪ default_config)).
  { rewrite HC. unfold loaded. by destruct (home_config s0). }
  exists G, s, loaded. eexists.
  split_and!; [done|done|by apply init_run|done..].
Qed.

(** ** Messages *)



(** ** The context excerpt past the end of a file *)

(** X16: a frame whose line number lies two or more lines past the end
    of its file, as with a file that got shorter, gets the empty
    excerpt. *)
Theorem context_excerpt_past_end (src : list string) (ln : Z) :
  Z.of_nat (length src) + 2 ≤ ln → context_excerpt src ln = "".
Proof.
  intros Hln. unfold context_excerpt. destruct src as [|l0 src']; [done|].
  rewrite py_slice_nonneg by lia.
  replace (Z.to_nat (Z.min (Z.of_nat (length (l0 :: src'))) (ln + 1))
           - Z.to_nat (Z.max 0 (ln - 2)))%nat with 0%nat by lia.
  done.
Qed.

(** ** Entry points *)

Section EntryPoints.
Variable G : globals.
Variable super_init : M Pdb.
Variable super_reset : Pdb → M Pdb.
Variable super_set_trace : RichPdb.t → option frame → M unit.
Variable super_interaction : RichPdb.t → option frame → value → M unit.

(** X17: the pytest hook, given exception info whose last element is
    the traceback [tb], builds its session with [show_locals = True] and
    [context_lines = 20] without reading the configuration, resets it,
    prints the banner and nothing else, and enters the inherited
    interaction with no frame and [tb].  With an empty exception info the
    unpacking raises [ValueError] before anything happens. *)
Theorem pytest_hook_stop (excinfo : list value) (tb report : value)
    (pdb0 b : Pdb) (s s1 s2 : state) :
  last excinfo = Some tb →
  super_init s = (Ok pdb0, s1) →
  super_reset pdb0 s1 = (Ok b, s2) →
  pytest_exception_interact G super_init super_reset super_interaction
    excinfo report s
  = super_interaction
      (RichPdb.Make b (VBool true) (VInt 20) " (nicerpdb) > ") None tb
      (log s2 [banner])
  ∧ pytest_exception_interact G super_init super_reset super_interaction
      [] report s
    = (Raised (ValueError "not enough values to unpack"), s).
Proof.
  intros Hlast Hinit Hreset. split; [|done].
  unfold pytest_exception_interact. rewrite Hlast.
  unfold bind at 1, RichPdb_new, bind at 1. rewrite Hinit.
  unfold RichPdb.__init__, bind at 1, ret at 1, bind at 1, ret at 1,
    ret at 1.
  unfold bind at 1, reset, bind at 1. simpl RichPdb.base. rewrite Hreset.
  unfold ret at 1. simpl.
  unfold RichPdb.interaction, bind at 1, console_rule, emit. fold banner.
  unfold bind at 1, try_except. simpl. done.
Qed.

(** X18: in a state where the class configuration is a parsed table
    merged over the defaults, [set_trace] builds the session with the
    settings resolved as the constructor does, resets it, and hands it to
    the inherited [set_trace] together with the caller of the current
    frame; [breakpoint] does the same with no overrides, whatever
    arguments it is called with. *)
Theorem set_trace_starts_at_caller (here : frame) (sl cl : value)
    (loaded : dict) (pdb0 b : Pdb) (s s1 s2 : state) :
  super_init s = (Ok pdb0, s1) →
  heap s1 !! RichPdb_config G = Some (loaded ∪ default_config) →
  super_reset pdb0 s1 = (Ok b, s2) →
  let conf_sl := default (VBool true) (loaded !! "show_locals") in
  let conf_cl := default (VInt 3) (loaded !! "context_lines") in
  set_trace G super_init super_reset super_set_trace here sl cl s
  = super_set_trace
      (RichPdb.Make b (if decide (sl = VNone) then conf_sl else sl)
                      (if decide (cl = VNone) then conf_cl else cl)
                      " (nicerpdb) > ")
      (f_back here) s2
  ∧ ∀ (args : list value) (kwargs : dict),
      breakpoint G super_init super_reset super_set_trace here args kwargs s
      = super_set_trace (RichPdb.Make b conf_sl conf_cl " (nicerpdb) > ")
          (f_back here) s2.
Proof.
  intros Hinit Hcfg Hreset conf_sl conf_cl.
  assert (Hrun : ∀ sl' cl',
    set_trace G super_init super_reset super_set_trace here sl' cl' s
    = super_set_trace
        (RichPdb.Make b (if decide (sl' = VNone) then conf_sl else sl')
                        (if decide (cl' = VNone) then conf_cl else cl')
                        " (nicerpdb) > ")
        (f_back here) s2).
  { intros sl' cl'. unfold set_trace, bind at 1, RichPdb_new, bind at 1.
    rewrite Hinit. rewrite (init_run G loaded) by done.
    unfold bind at 1, reset, bind at 1. simpl RichPdb.base. rewrite Hreset.
    done. }
  split; [apply Hrun|].
  intros args kwargs. unfold breakpoint. by rewrite Hrun.
Qed.
End EntryPoints.

(** ** The further properties at the sample session *)






Lemma listing_without_frame_witness :
  curframe (RichPdb.base fresh_session) = None
  ∧ ∃ e, is_Exception e = true
         ∧ RichPdb.do_list fresh_session "" sample_state
           = (Raised e, sample_state)
         ∧ RichPdb.do_longlist fresh_session "" sample_state
           = (Raised e, sample_state).
Proof.
  assert (H1 : curframe (RichPdb.base fresh_session) = None) by reflexivity.
  split; [done|].
  destruct (listing_without_frame fresh_session "" sample_state H1)
    as (e & He & _ & Hl & Hll).
  exists e. split_and!; [exact He|exact Hl|exact Hll].
Defined.




Lemma stack_view_follows_curframe_witness :
  let s' := (RichPdb.stop_views sample_globals fresh_session
               (Some helper_frame) sample_state).2 in
  RichPdb.stop_views sample_globals fresh_session (Some helper_frame)
    sample_state = (Ok tt, s')
  ∧ curframe (RichPdb.base fresh_session) = None
  ∧ stack_table [] ∈ drop (length (console sample_state)) (console s')
  ∧ ∀ rows, stack_table rows
            ∈ drop (length (console sample_state)) (console s') →
            rows = [].
Proof.
  intros s'.
  assert (H1 : RichPdb.stop_views sample_globals fresh_session
                 (Some helper_frame) sample_state = (Ok tt, s'))
    by (by vm_compute).
  assert (H2 : curframe (RichPdb.base fresh_session) = None) by reflexivity.
  split_and!; [done..| |].
  - vm_compute. do 3 apply list_elem_of_further. apply list_elem_of_here.
  - destruct (stack_view_follows_curframe sample_globals fresh_session
                helper_frame sample_state s' H1) as [_ Hnone].
    exact (proj1 (Hnone H2)).
Defined.

Lemma init_config_lookups_witness :
  heap bare_state !! RichPdb_config sample_globals = Some ∅
  ∧ RichPdb.__init__ sample_globals (MkPdb None) (VBool true) (VInt 20)
      bare_state
    = (Ok (RichPdb.Make (MkPdb None) (VBool true) (VInt 20) " (nicerpdb) > "),
       bare_state)
  ∧ RichPdb.__init__ sample_globals (MkPdb None) VNone (VInt 20) bare_state
    = (Raised (KeyError "show_locals"), bare_state).
Proof.
  assert (H1 : heap bare_state !! RichPdb_config sample_globals = Some ∅)
    by reflexivity.
  split; [done|].
  destruct (init_config_lookups sample_globals ∅ (MkPdb None) bare_state H1)
    as (Hexp & Hsl & _).
  split.
  - apply Hexp; discriminate.
  - apply Hsl. reflexivity.
Defined.

Lemma context_excerpt_past_end_witness :
  Z.of_nat (length prog_lines) + 2 ≤ 12 ∧ context_excerpt prog_lines 12 = "".
Proof.
  assert (H1 : Z.of_nat (length prog_lines) + 2 ≤ 12) by (simpl; lia).
  split; [done|]. exact (context_excerpt_past_end prog_lines 12 H1).
Defined.

Lemma pytest_hook_stop_witness :
  last sample_excinfo = Some (VObj true "<traceback object>")
  ∧ sample_init bare_state = (Ok (MkPdb (Some main_frame)), bare_state)
  ∧ sample_reset (MkPdb (Some main_frame)) bare_state
    = (Ok (MkPdb None), bare_state)
  ∧ console (pytest_exception_interact sample_globals sample_init
               sample_reset sample_loop sample_excinfo VNone bare_state).2
    = [banner; PrintNoNewline " (nicerpdb) > "].
Proof.
  assert (H1 : last sample_excinfo = Some (VObj true "<traceback object>"))
    by reflexivity.
  assert (H2 : sample_init bare_state
               = (Ok (MkPdb (Some main_frame)), bare_state)) by reflexivity.
  assert (H3 : sample_reset (MkPdb (Some main_frame)) bare_state
               = (Ok (MkPdb None), bare_state)) by reflexivity.
  split_and!; [done..|].
  rewrite (proj1 (pytest_hook_stop sample_globals sample_init sample_reset
                    sample_loop sample_excinfo _ VNone _ _ _ _ _ H1 H2 H3)).
  reflexivity.
Defined.

Lemma set_trace_starts_at_caller_witness :
  sample_init quiet_state = (Ok (MkPdb (Some main_frame)), quiet_state)
  ∧ heap quiet_state !! RichPdb_config sample_globals
    = Some ({[ "show_stack" := VBool false ]} ∪ default_config)
  ∧ sample_reset (MkPdb (Some main_frame)) quiet_state
    = (Ok (MkPdb None), quiet_state)
  ∧ console (set_trace sample_globals sample_init sample_reset
               sample_set_trace set_trace_frame VNone (VInt 5) quiet_state).2
    = [PrintNoNewline "trace helper"].
Proof.
  assert (H1 : sample_init quiet_state
               = (Ok (MkPdb (Some main_frame)), quiet_state)) by reflexivity.
  assert (H2 : heap quiet_state !! RichPdb_config sample_globals
               = Some ({[ "show_stack" := VBool false ]} ∪ default_config))
    by reflexivity.
  assert (H3 : sample_reset (MkPdb (Some main_frame)) quiet_state
               = (Ok (MkPdb None), quiet_state)) by reflexivity.
  split_and!; [done..|].
  rewrite (proj1 (set_trace_starts_at_caller sample_globals sample_init
                    sample_reset sample_set_trace set_trace_frame VNone
                    (VInt 5) _ _ _ _ _ _ H1 H2 H3)).
  reflexivity.
Defined.
